(** * SISE task 2: verification of [my_functions.py]

    A shallow embedding of the glue code of [my_functions.py]
    ([load_data], [NeuralNetworkModel], [calculate_cdf]) and proofs of
    the properties its specification states.

    Numbers.  The Python code computes on IEEE binary64 values.  Finite
    values are modelled by canonical rationals ([Qc]) with exact
    arithmetic, so rounding and overflow are abstracted away; the special
    values a division by zero produces ([nan], [inf], [-inf]) are kept,
    because the specification talks about them. *)

From Stdlib Require Import QArith Qcanon.
From stdpp Require Import base numbers list sorting strings pretty gmap.

Local Open Scope Qc_scope.

(** ** NumPy values and the array operations used by [calculate_cdf] *)

Module Np.

(** An element of a float64 array. *)
Inductive float64 : Type :=
| Finite (q : Qc)
| PosInf
| NegInf
| NaN.



(** IEEE comparison [x <= y]: false as soon as one side is [nan]. *)
Definition leb (x y : float64) : bool :=
  match x, y with
  | NaN, _ | _, NaN => false
  | NegInf, _ => true
  | _, PosInf => true
  | Finite a, Finite b => bool_decide (a ≤ b)
  | _, _ => false
  end.

Definition le (x y : float64) : Prop := leb x y = true.

Global Instance float64_eq_dec : EqDecision float64.
Proof. solve_decision. Defined.
Global Instance le_dec : RelDecision le.
Proof. intros x y. unfold le. apply _. Defined.

(** [np.sort] on an array of finite values: the ascending arrangement. *)
Definition sort (a : list Qc) : list Qc := merge_sort Qcle a.

(** [np.cumsum]: running sums, left to right. *)
Fixpoint cumsum_from (acc : Qc) (a : list Qc) : list Qc :=
  match a with
  | [] => []
  | x :: a' => (acc + x) :: cumsum_from (acc + x) a'
  end.

Definition cumsum (a : list Qc) : list Qc := cumsum_from 0 a.

(** [np.sum]; the sum of the empty array is [0.0]. *)
Definition sum (a : list Qc) : Qc := foldr Qcplus 0 a.
Global Arguments sum : simpl never.

(** One float64 division [x / s] of finite operands.  NumPy does not
    raise on a zero divisor: it stores [nan] for [0/0] and a signed
    infinity otherwise (and emits a warning). *)
Definition true_divide (x s : Qc) : float64 :=
  if decide (s = 0) then
    if decide (x = 0) then NaN
    else if decide (0 < x) then PosInf else NegInf
  else Finite (x / s).

(** [a / s] for an array [a] and a scalar [s]: element-wise, so an
    empty array performs no division at all. *)
Definition divide (a : list Qc) (s : Qc) : list float64 :=
  (λ x, true_divide x s) <$> a.

End Np.

(** ** [calculate_cdf] *)

Definition calculate_cdf (errors : list Qc) : list Qc * list Np.float64 :=
  let sorted_errors := Np.sort errors in
  let cdf := Np.divide (Np.cumsum sorted_errors) (Np.sum sorted_errors) in
  (sorted_errors, cdf).

(** ** Python exceptions and fallible computations *)

Inductive exn : Type :=
| FileNotFoundError (path : string)
| ParserError (path : string)
| IndexError
| KeyError (key : string)
| ValueError (msg : string).

Inductive result (A : Type) : Type :=
| Ok (a : A)
| Raise (e : exn).
Global Arguments Ok {A} a.
Global Arguments Raise {A} e.

Global Instance result_ret : MRet result := λ A, Ok.
Global Instance result_bind : MBind result := λ A B f m,
  match m with
  | Ok a => f a
  | Raise e => Raise e
  end.

(** [l[i]] on a Python list (non-negative index). *)
Definition getitem {A} (l : list A) (i : nat) : result A :=
  match l !! i with
  | Some x => Ok x
  | None => Raise IndexError
  end.

(** [sorted(names)] on strings: ascending code-point order, which on
    (UTF-8) byte strings is the byte-wise lexicographic order. *)
Definition sorted (names : list string) : list string :=
  merge_sort String.le names.

(** [s.endswith(suffix)] *)
Definition endswith (s suffix : string) : bool :=
  let n := String.length s in
  let m := String.length suffix in
  (m <=? n)%nat && String.eqb (String.substring (n - m) m s) suffix.

(** ** pandas frames *)

Module Pd.

(** A parsed CSV field: a number, or [None] for a missing value (NaN). *)
Definition cell : Type := option Qc.

(** One record under the fixed schema
    [columns = ["input_X", "input_Y", "expected_X", "expected_Y"]]. *)
Record row (C : Type) : Type := Row {
  input_X : C;
  input_Y : C;
  expected_X : C;
  expected_Y : C
}.
Global Arguments Row {C} _ _ _ _.
Global Arguments input_X {C} _.
Global Arguments input_Y {C} _.
Global Arguments expected_X {C} _.
Global Arguments expected_Y {C} _.

(** A frame with these four columns and a fresh 0..n-1 index. *)
Abbreviation DataFrame C := (list (row C)).

(** [pd.DataFrame(columns=columns)] *)
Definition empty {C} : DataFrame C := [].

(** [pd.concat(frames, ignore_index=True)] *)
Definition concat {C} (frames : list (DataFrame C)) : DataFrame C :=
  mjoin frames.

(** Does the row hold no missing value? *)
Definition notna (r : row cell) : bool :=
  bool_decide (is_Some (input_X r)) && bool_decide (is_Some (input_Y r)) &&
  bool_decide (is_Some (expected_X r)) && bool_decide (is_Some (expected_Y r)).

(** The numbers of a row, when none is missing. *)
Definition numbers (r : row cell) : option (row Qc) :=
  x ← input_X r; y ← input_Y r; ex ← expected_X r; ey ← expected_Y r;
  Some (Row x y ex ey).

(** [df.dropna()]: the rows holding a missing value are dropped, the
    others are kept in order.  The rows that remain hold four numbers,
    which the result type records. *)
Definition dropna (df : DataFrame cell) : DataFrame Qc := omap numbers df.

(** A row of numbers seen as a row of cells. *)
Definition cells (r : row Qc) : row cell :=
  Row (Some (input_X r)) (Some (input_Y r))
      (Some (expected_X r)) (Some (expected_Y r)).

(** [df[[c1, c2]].values]: the two selected columns as a 2-D array. *)
Definition values {C} (c1 c2 : row C → C) (df : DataFrame C) : list (list C) :=
  (λ r, [c1 r; c2 r]) <$> df.

End Pd.

(** ** The file system as [load_data] observes it *)

Module Os.

(** The state of the disk, seen through the two calls that read it:
    [os.listdir(path)] (names in arbitrary order) and
    [pd.read_csv(path, names=columns)].  Either may raise. *)
Record Disk : Type := {
  listdir : string → result (list string);
  read_csv : string → result (Pd.DataFrame Pd.cell)
}.

(** [os.path.join(a, b)] for two components (POSIX). *)
Definition path_join (a b : string) : string :=
  if String.prefix "/" b then b
  else if String.eqb a "" || endswith a "/" then a +:+ b
  else a +:+ "/" +:+ b.

End Os.

(** ** [load_data] *)

Definition static_folders_paths : list string :=
  ["./dane/f8/stat"; "./dane/f10/stat"].
Definition dynamic_folders_paths : list string :=
  ["./dane/f8/dyn"; "./dane/f10/dyn"].

(** [sorted(file for file in names if file.endswith(".csv"))] *)
Definition csv_files (names : list string) : list string :=
  sorted (filter (λ file, endswith file ".csv" = true) names).

(** The loop [for file in files: data = pd.concat([data, read_csv(...)])]. *)
Fixpoint read_files (disk : Os.Disk) (folder_path : string)
    (files : list string) (data : Pd.DataFrame Pd.cell)
    : result (Pd.DataFrame Pd.cell) :=
  match files with
  | [] => Ok data
  | file :: files' =>
      let file_path := Os.path_join folder_path file in
      temp_data_frame ← Os.read_csv disk file_path;
      read_files disk folder_path files' (Pd.concat [data; temp_data_frame])
  end.

(** The body of [for i in range(2)], on the pair
    [(training_data, testing_data)]. *)
Definition load_folder_pair (disk : Os.Disk) (i : nat)
    (data : Pd.DataFrame Pd.cell * Pd.DataFrame Pd.cell)
    : result (Pd.DataFrame Pd.cell * Pd.DataFrame Pd.cell) :=
  static_folder_path ← getitem static_folders_paths i;
  dynamic_folder_path ← getitem dynamic_folders_paths i;
  static_names ← Os.listdir disk static_folder_path;
  let static_files := csv_files static_names in
  dynamic_names ← Os.listdir disk dynamic_folder_path;
  let dynamic_files := csv_files dynamic_names in
  training_data ← read_files disk static_folder_path static_files data.1;
  testing_data ← read_files disk dynamic_folder_path dynamic_files data.2;
  Ok (training_data, testing_data).

(** The whole loop: both frames before the null-drop. *)
Definition load_frames (disk : Os.Disk)
    : result (Pd.DataFrame Pd.cell * Pd.DataFrame Pd.cell) :=
  foldl (λ acc i, data ← acc; load_folder_pair disk i data)
        (Ok (Pd.empty, Pd.empty)) (seq 0 2).

(** What [load_data] yields: the two frames it returns and the debug
    files it writes with [to_csv] (name and content, in order). *)
Record Loaded : Type := {
  training_data : Pd.DataFrame Qc;
  testing_data : Pd.DataFrame Qc;
  written : list (string * Pd.DataFrame Qc)
}.

Definition load_data (disk : Os.Disk) : result Loaded :=
  data ← load_frames disk;
  let training_data := Pd.dropna data.1 in
  let testing_data := Pd.dropna data.2 in
  Ok {| training_data := training_data;
        testing_data := testing_data;
        written := [("training_data.csv", training_data);
                    ("testing_data.csv", testing_data)] |}.

(** The contract of the loader in the words of the specification: for
    each folder in turn, the CSV files in sorted name order, each
    contributing its table, all concatenated in the order met.
    [names] lists a folder and [table] is the parsed content of a
    path. *)
Definition tables_in_order (names : string → list string)
    (table : string → Pd.DataFrame Pd.cell) (folders : list string)
    : Pd.DataFrame Pd.cell :=
  Pd.concat (folder ← folders;
             file ← csv_files (names folder);
             [table (Os.path_join folder file)]).

(** Two outcomes of listing a folder that the loader cannot tell apart:
    the same exception, or the same CSV names up to order (other names
    may differ). *)
Definition same_csv_names (listing1 listing2 : result (list string)) : Prop :=
  match listing1, listing2 with
  | Ok names1, Ok names2 =>
      filter (λ file, endswith file ".csv" = true) names1
      ≡ₚ filter (λ file, endswith file ".csv" = true) names2
  | Raise e1, Raise e2 => e1 = e2
  | _, _ => False
  end.

(** ** The Keras API used by the wrapper

    The network itself lives in the deep-learning library.  What follows
    is a model of the part of its documented behaviour the wrapper
    relies on: a [Sequential] stack of [Dense] layers, [compile], [fit],
    [evaluate] and [predict], on exact numbers.  Activation functions,
    weight initialisers and the optimiser's update are the library's
    numerical kernels and stay abstract ([Backend]).

    Left out: mini-batches, shuffling and the randomness of
    initialisers (a [Backend] is deterministic) and progress output.
    Arguments are taken to be of the types the wrapper passes: widths
    are integers, rates are floats, and the two arrays of a pair have
    as many rows as each other. *)

Module Keras.

(** An optimizer once constructed. *)
Inductive Optimizer : Type :=
| AdamOptimizer (learning_rate : Qc)
| SGDOptimizer (learning_rate momentum : Qc).

(** [Adam(learning_rate=...)] *)
Definition Adam (learning_rate : Qc) : result Optimizer :=
  Ok (AdamOptimizer learning_rate).

Definition momentum_error : exn :=
  ValueError "`momentum` must be a float between [0, 1].".

(** [SGD(learning_rate=..., momentum=...)]: the constructor refuses a
    momentum outside [[0, 1]]. *)
Definition SGD (learning_rate momentum : Qc) : result Optimizer :=
  if decide (0 ≤ momentum ∧ momentum ≤ 1)
  then Ok (SGDOptimizer learning_rate momentum)
  else Raise momentum_error.

(** A dense layer once constructed: its width and the activation and
    initialiser its names were resolved to.  An initialiser maps
    [fan_in], [fan_out] and a position to the initial kernel entry. *)
Record DenseLayer : Type := {
  units : nat;
  activation : Qc → Qc;
  kernel_initializer : nat → nat → nat → nat → Qc
}.

(** What [Sequential.add] accepts here: an [Input] or a [Dense] layer. *)
Inductive Layer : Type :=
| Input (shape : nat)
| DenseOf (layer : DenseLayer).

(** The trainable parameters: kernel entry (layer, input, unit) and
    bias entry (layer, unit). *)
Record Params : Type := {
  kernel : nat → nat → nat → Qc;
  bias : nat → nat → Qc
}.

Record Compiled : Type := {
  optimizer : Optimizer;
  loss : string;
  metrics : list string
}.

Record Sequential : Type := {
  input_shape : option nat;
  layers : list DenseLayer;
  params : Params;
  compiled : option Compiled
}.

(** The [History] object returned by [fit]: [history] maps a metric name
    to the values logged for it, one per finished epoch. *)
Record History : Type := {
  history : gmap string (list Qc);
  epoch : list nat
}.

Class Backend : Type := {
  (** [activations.get(name)] *)
  activations_get : string → option (Qc → Qc);
  (** [initializers.get(name)] *)
  initializers_get : string → option (nat → nat → nat → nat → Qc);
  (** One epoch of optimiser updates on a training array [(x, y)] with
      at least one row: the updated parameters and the training loss
      logged for the epoch. *)
  train_epoch : Optimizer → list DenseLayer → Params →
                list (list Qc) → list (list Qc) → Params * Qc;
  (** What [predict] raises when it is given no sample (the class of
      this exception depends on the version of the library). *)
  no_sample_error : exn
}.

Definition units_error : exn :=
  ValueError "Received an invalid value for `units`, expected a positive integer.".

(** [Dense(units, activation=..., kernel_initializer=...)]: a width that
    is not positive and unknown names are rejected when the layer is
    constructed. *)
Definition Dense {backend : Backend} (units : nat)
    (activation kernel_initializer : string) : result Layer :=
  if decide (units = 0%nat) then Raise units_error
  else
    match activations_get activation, initializers_get kernel_initializer with
    | Some act, Some init =>
        Ok (DenseOf {| units := units; activation := act;
                       kernel_initializer := init |})
    | None, _ => Raise (ValueError "Unknown activation function")
    | _, None => Raise (ValueError "Unknown initializer")
    end.

(** [Sequential()] *)
Definition Sequential_new : Sequential := {|
  input_shape := None;
  layers := [];
  params := {| kernel := λ _ _ _, 0; bias := λ _ _, 0 |};
  compiled := None
|}.

(** Width of what the stack built so far outputs. *)
Definition output_width (model : Sequential) : option nat :=
  match last (layers model) with
  | Some layer => Some (units layer)
  | None => input_shape model
  end.

(** Creating the weights of layer number [k]: kernel from the layer's
    initialiser, bias zero. *)
Definition build_layer (layer : DenseLayer) (k fan_in : nat) (p : Params) : Params := {|
  kernel := λ k' i j,
    if decide (k' = k) then kernel_initializer layer fan_in (units layer) i j
    else kernel p k' i j;
  bias := λ k' j, if decide (k' = k) then 0 else bias p k' j
|}.

(** [model.add(layer)].  An [Input] must come first.  A [Dense] layer is
    appended and, the input width being known, built at once (building
    deferred to the first call, when no [Input] was added, is left out:
    the wrapper always adds the [Input] first). *)
Definition add (model : Sequential) (layer : Layer) : result Sequential :=
  match layer with
  | Input shape =>
      match layers model, input_shape model with
      | [], None =>
          Ok {| input_shape := Some shape; layers := [];
                params := params model; compiled := compiled model |}
      | _, _ => Raise (ValueError "Sequential model already has an input")
      end
  | DenseOf layer =>
      let k := length (layers model) in
      Ok {| input_shape := input_shape model;
            layers := layers model ++ [layer];
            params := match output_width model with
                      | Some fan_in => build_layer layer k fan_in (params model)
                      | None => params model
                      end;
            compiled := compiled model |}
  end.

(** The loss and metric names the wrapper uses. *)
Definition is_mean_squared_error (name : string) : bool :=
  bool_decide (name ∈ ["mse"; "MSE"; "mean_squared_error"]).

(** [model.compile(optimizer=..., loss=..., metrics=...)] *)
Definition compile (model : Sequential) (optimizer : Optimizer)
    (loss : string) (metrics : list string) : result Sequential :=
  if forallb is_mean_squared_error (loss :: metrics) then
    Ok {| input_shape := input_shape model; layers := layers model;
          params := params model;
          compiled := Some {| optimizer := optimizer; loss := loss;
                              metrics := metrics |} |}
  else Raise (ValueError "Unknown loss function or metric").

(** The forward pass of one dense layer on one sample. *)
Definition dot (x : list Qc) (w : nat → Qc) : Qc :=
  Np.sum (imap (λ i xi, xi * w i) x).

Definition dense_call (p : Params) (k : nat) (layer : DenseLayer)
    (x : list Qc) : list Qc :=
  (λ j, activation layer (dot x (λ i, kernel p k i j) + bias p k j))
    <$> seq 0 (units layer).

Fixpoint call_from (p : Params) (k : nat) (ls : list DenseLayer)
    (x : list Qc) : list Qc :=
  match ls with
  | [] => x
  | layer :: ls' => call_from p (S k) ls' (dense_call p k layer x)
  end.

Definition call (model : Sequential) (x : list Qc) : list Qc :=
  call_from (params model) 0 (layers model) x.

(** Shape checks: every sample as wide as the input, every target as
    wide as the output (broadcasting of targets is not modelled). *)
Definition check_width (what : string) (width : option nat)
    (a : list (list Qc)) : result unit :=
  match width with
  | None => Raise (ValueError "The model has not been built")
  | Some n =>
      if forallb (λ r, length r =? n)%nat a then Ok ()
      else Raise (ValueError ("Incompatible shape of " +:+ what))
  end.

(** Modelled from the spec: the library's [model.predict(x)], which is
    not part of the repository; it yields the per-record predictions,
    one output row per sample, and changes nothing.  Without any sample
    there is no batch to predict on, and it raises. *)
Definition predict {backend : Backend} (model : Sequential)
    (x : list (list Qc)) : result (list (list Qc)) :=
  _ ← check_width "x" (input_shape model) x;
  if decide (x = []) then Raise no_sample_error
  else Ok (call model <$> x).

(** The mean of a list that is not empty (the definitions below take
    it of the errors of at least one sample, each over at least one
    output). *)
Definition mean (l : list Qc) : Qc := Np.sum l / Qc_of_Z (Z.of_nat (length l)).

Definition squared_error (y_true y_pred : list Qc) : Qc :=
  mean (zip_with (λ t p, (t - p) * (t - p)) y_true y_pred).

(** Mean over the samples of the mean squared difference per sample. *)
Definition mean_squared_error (y_true y_pred : list (list Qc)) : Qc :=
  mean (zip_with squared_error y_true y_pred).

(** Modelled from the spec: the library's [model.evaluate(x, y)], which
    is not part of the repository; it computes the mean squared error
    against the expected columns and returns the loss followed by the
    compiled metrics.  It needs a compiled model and changes nothing.
    Without any sample no batch is evaluated and no value is logged:
    the list returned is empty. *)
Definition evaluate (model : Sequential) (x y : list (list Qc))
    : result (list Qc) :=
  match compiled model with
  | None => Raise (ValueError "You must call compile() before using the model")
  | Some c =>
      _ ← check_width "x" (input_shape model) x;
      _ ← check_width "y" (output_width model) y;
      if decide (x = []) then Ok []
      else
        let mse := mean_squared_error y (call model <$> x) in
        Ok (mse :: ((λ _, mse) <$> metrics c))
  end.

(** [History.on_epoch_end]: [history.setdefault(k, []).append(v)] for
    every logged pair. *)
Definition on_epoch_end (h : History) (e : nat) (logs : list (string * Qc))
    : History := {|
  history := foldl (λ m kv, <[kv.1 := default [] (m !! kv.1) ++ [kv.2]]> m)
                   (history h) logs;
  epoch := epoch h ++ [e]
|}.

(** The values logged under a name; none when the name is absent. *)
Definition series (h : History) (name : string) : list Qc :=
  default [] (history h !! name).

Definition set_params (model : Sequential) (p : Params) : Sequential := {|
  input_shape := input_shape model; layers := layers model;
  params := p; compiled := compiled model
|}.

(** The training half of one epoch: the updated parameters and the
    values logged for the training arrays.  Over an array without rows
    no step runs: nothing is updated and nothing is logged. *)
Definition train_step {backend : Backend} (model : Sequential) (c : Compiled)
    (x y : list (list Qc)) : Params * list (string * Qc) :=
  if decide (x = []) then (params model, [])
  else
    let names := "loss" :: metrics c in
    let '(p, train_loss) :=
      train_epoch (optimizer c) (layers model) (params model) x y in
    (p, zip names ((λ _, train_loss) <$> names)).

(** Modelled from the spec: the epoch loop of the library's [fit], which
    is not part of the repository; it fits for the configured number of
    epochs, the validation arrays being evaluated once per epoch, and
    keeps the per-epoch history of training and validation error, one
    entry per epoch: each epoch updates the parameters on the training
    arrays and logs [loss], the metrics, and their [val_] counterparts.
    Validation arrays without rows add no [val_] value.  It returns the
    model as the epochs run so far have left it. *)
Fixpoint fit_epochs {backend : Backend} (model : Sequential) (c : Compiled)
    (x y val_x val_y : list (list Qc)) (todo e : nat) (h : History)
    : Sequential * result History :=
  match todo with
  | O => (model, Ok h)
  | S todo' =>
      match (_ ← check_width "x" (input_shape model) x;
             check_width "y" (output_width model) y) with
      | Raise err => (model, Raise err)
      | Ok _ =>
          let names := "loss" :: metrics c in
          let '(p, train_logs) := train_step model c x y in
          let model := set_params model p in
          match evaluate model val_x val_y with
          | Raise err => (model, Raise err)
          | Ok val_logs =>
              let logs :=
                train_logs
                ++ zip ((λ name, "val_" +:+ name) <$> names) val_logs in
              fit_epochs model c x y val_x val_y todo' (S e)
                         (on_epoch_end h e logs)
          end
      end
  end.

(** [model.fit(x, y, epochs=..., validation_data=(val_x, val_y))] with a
    fresh [History]. *)
Definition fit {backend : Backend} (model : Sequential) (x y : list (list Qc))
    (epochs : nat) (validation_data : list (list Qc) * list (list Qc))
    : Sequential * result History :=
  match compiled model with
  | None =>
      (model, Raise (ValueError "You must call compile() before using the model"))
  | Some c =>
      fit_epochs model c x y validation_data.1 validation_data.2 epochs 0
                 {| history := ∅; epoch := [] |}
  end.

End Keras.

(** ** [NeuralNetworkModel] *)

(** The attributes [__init__] stores from its arguments. *)
Record Config : Type := {
  hidden_layers : list nat;
  activation_function : string;
  activation_function_out : string;
  weight_init_method : string;
  num_of_inputs_neurons : nat;
  num_of_outputs_neurons : nat;
  epochs : nat;
  learning_rate : Qc;
  optimizer_type : string;
  momentum : Qc
}.

(** The object: the stored attributes and [self.model]. *)
Record NeuralNetworkModel : Type := {
  config :> Config;
  model : Keras.Sequential
}.

(** A method: it may update the object and returns a value or raises. *)
Definition method (A : Type) : Type :=
  NeuralNetworkModel → NeuralNetworkModel * result A.

Definition dquote : string := String (Ascii.ascii_of_nat 34) EmptyString.

(** The message of the exception [train] raises. *)
Definition optimizer_error : exn :=
  ValueError ("Optimizer must be either " +:+ dquote +:+ "adam" +:+ dquote
              +:+ " or " +:+ dquote +:+ "sgd" +:+ dquote).

Section NeuralNetworkModel.
Context {backend : Keras.Backend}.

Definition create_model (self : Config) : result Keras.Sequential :=
  let model := Keras.Sequential_new in
  (* input layer *)
  let il := Keras.Input (num_of_inputs_neurons self) in
  model ← Keras.add model il;
  (* first hidden layer *)
  first ← getitem (hidden_layers self) 0;
  fhl ← Keras.Dense first (activation_function self) (weight_init_method self);
  model ← Keras.add model fhl;
  (* next hidden layers *)
  model ← foldl (λ acc layer,
                   model ← acc;
                   nhl ← Keras.Dense layer (activation_function self)
                                     (weight_init_method self);
                   Keras.add model nhl)
                (Ok model) (drop 1 (hidden_layers self));
  (* output layer *)
  ol ← Keras.Dense (num_of_outputs_neurons self)
                   (activation_function_out self) (weight_init_method self);
  model ← Keras.add model ol;
  Ok model.

Definition __init__ (self : Config) : result NeuralNetworkModel :=
  model ← create_model self;
  Ok {| config := self; model := model |}.

Definition train (training_data testing_data : Pd.DataFrame Qc)
    : method Keras.History := λ self,
  (* preparation of training and validation data *)
  let train_data := Pd.values Pd.input_X Pd.input_Y training_data in
  let train_labels := Pd.values Pd.expected_X Pd.expected_Y training_data in
  let val_data := Pd.values Pd.input_X Pd.input_Y testing_data in
  let val_labels := Pd.values Pd.expected_X Pd.expected_Y testing_data in
  (* optimizer selection *)
  let opt :=
    if decide (optimizer_type self = "adam") then
      Keras.Adam (learning_rate self)
    else if decide (optimizer_type self = "sgd") then
      Keras.SGD (learning_rate self) (momentum self)
    else Raise optimizer_error in
  match opt with
  | Raise err => (self, Raise err)
  | Ok opt =>
      (* model compilation *)
      match Keras.compile (model self) opt "mean_squared_error" ["mse"] with
      | Raise err => (self, Raise err)
      | Ok compiled =>
          let '(fitted, history) :=
            Keras.fit compiled train_data train_labels (epochs self)
                      (val_data, val_labels) in
          ({| config := config self; model := fitted |}, history)
      end
  end.

Definition test (testing_data : Pd.DataFrame Qc)
    : method (Qc * list (list Qc)) := λ self,
  (* preparation of validation data *)
  let test_data := Pd.values Pd.input_X Pd.input_Y testing_data in
  let test_labels := Pd.values Pd.expected_X Pd.expected_Y testing_data in
  (* final evaluation of the model *)
  (self,
   mse ← Keras.evaluate (model self) test_data test_labels;
   predictions ← Keras.predict (model self) test_data;
   mse1 ← getitem mse 1;
   Ok (mse1, predictions)).

Definition give_train_mse (history : Keras.History) : method (list Qc) := λ self,
  (self,
   match Keras.history history !! "mse" with
   | Some series => Ok series
   | None => Raise (KeyError "mse")
   end).

Definition give_test_mse (history : Keras.History) : method (list Qc) := λ self,
  (self,
   match Keras.history history !! "val_mse" with
   | Some series => Ok series
   | None => Raise (KeyError "val_mse")
   end).

(** The objects the wrapper can hold: constructed by [__init__], then
    possibly trained any number of times. *)
Inductive constructed : NeuralNetworkModel → Prop :=
| constructed_init cfg self :
    __init__ cfg = Ok self → constructed self
| constructed_train self training_data testing_data self' outcome :
    constructed self →
    train training_data testing_data self = (self', outcome) →
    constructed self'.

(** Those on which [train] has succeeded last. *)
Inductive trained : NeuralNetworkModel → Prop :=
| trained_intro self training_data testing_data self' history :
    constructed self →
    train training_data testing_data self = (self', Ok history) →
    trained self'.

End NeuralNetworkModel.

(** The default arguments of [__init__] ([0.01] and [0.9] as the
    fractions they denote). *)
Definition defaults (hidden_layers : list nat) : Config := {|
  hidden_layers := hidden_layers;
  activation_function := "tanh";
  activation_function_out := "linear";
  weight_init_method := "glorot_uniform";
  num_of_inputs_neurons := 2;
  num_of_outputs_neurons := 2;
  epochs := 100;
  learning_rate := Qc_of_Z 1 / Qc_of_Z 100;
  optimizer_type := "adam";
  momentum := Qc_of_Z 9 / Qc_of_Z 10
|}.

(** The same arguments with another optimizer name. *)
Definition with_optimizer (name : string) (cfg : Config) : Config := {|
  hidden_layers := hidden_layers cfg;
  activation_function := activation_function cfg;
  activation_function_out := activation_function_out cfg;
  weight_init_method := weight_init_method cfg;
  num_of_inputs_neurons := num_of_inputs_neurons cfg;
  num_of_outputs_neurons := num_of_outputs_neurons cfg;
  epochs := epochs cfg;
  learning_rate := learning_rate cfg;
  optimizer_type := name;
  momentum := momentum cfg
|}.

(** The optimizer the [if]/[elif]/[else] of [train] constructs, or the
    exception it ends with. *)
Definition selected_optimizer (self : Config) : result Keras.Optimizer :=
  if decide (optimizer_type self = "adam") then
    Keras.Adam (learning_rate self)
  else if decide (optimizer_type self = "sgd") then
    Keras.SGD (learning_rate self) (momentum self)
  else Raise optimizer_error.


(** The shape of the network agrees with the stored attributes. *)
Definition well_shaped (self : NeuralNetworkModel) : Prop :=
  Keras.input_shape (model self) = Some (num_of_inputs_neurons self) ∧
  Keras.output_width (model self) = Some (num_of_outputs_neurons self) ∧
  Keras.layers (model self) ≠ [].

(** ** Plotting and [plot_cdf]

    The calls issued to [matplotlib.pyplot], in order, stand for the
    figure drawn.  When an exception interrupts a function the calls
    already issued are not reported. *)

Module Plt.

Inductive call : Type :=
| figure (width height : nat)
| plot (x : option (list Qc)) (y : list Np.float64) (label linestyle : string)
| grid (visible : bool)
| xlabel (text : string)
| ylabel (text : string)
| title (text : string)
| legend
| show.

End Plt.

(** Operations on 2-D arrays, kept as lists of rows (the column count of
    an array without rows is not represented). *)

Module Np2.

Definition broadcast_error : exn :=
  ValueError "operands could not be broadcast together".

(** [r1 - r2] on rows, with a row of one value stretched to the other. *)
Definition subtract_rows (r1 r2 : list Qc) : result (list Qc) :=
  if decide (length r1 = length r2) then Ok (zip_with Qcminus r1 r2)
  else match r1, r2 with
       | [x], _ => Ok ((λ y, x - y) <$> r2)
       | _, [y] => Ok ((λ x, x - y) <$> r1)
       | _, _ => Raise broadcast_error
       end.

(** [a - b] on 2-D arrays, with NumPy's broadcasting of a single row. *)
Definition subtract (a b : list (list Qc)) : result (list (list Qc)) :=
  if decide (length a = length b) then
    mapM (λ rows, subtract_rows rows.1 rows.2) (zip a b)
  else match a, b with
       | [r1], _ => mapM (subtract_rows r1) b
       | _, [r2] => mapM (λ r1, subtract_rows r1 r2) a
       | _, _ => Raise broadcast_error
       end.

(** The absolute value of one entry. *)
Definition abs1 (x : Qc) : Qc := if decide (0 ≤ x) then x else - x.

(** [np.abs(a)] *)
Definition abs (a : list (list Qc)) : list (list Qc) :=
  (λ r : list Qc, abs1 <$> r) <$> a.

(** [a.flatten()]: the rows one after the other. *)
Definition flatten (a : list (list Qc)) : list Qc := mjoin a.

End Np2.

(** [NeuralNetworkModel.plot]: both error series against the epoch
    index (labels in Polish, as in the source). *)
Definition plot (history : Keras.History) : method (list Plt.call) := λ self,
  (self,
   mse ← match Keras.history history !! "mse" with
         | Some series => Ok series
         | None => Raise (KeyError "mse")
         end;
   val_mse ← match Keras.history history !! "val_mse" with
             | Some series => Ok series
             | None => Raise (KeyError "val_mse")
             end;
   Ok [Plt.plot None (Np.Finite <$> mse) "MSE na zbiorze uczącym" "-";
       Plt.plot None (Np.Finite <$> val_mse) "MSE na zbiorze walidacyjnym" "-";
       Plt.xlabel "Epoki"; Plt.ylabel "MSE"; Plt.legend; Plt.show]).

(** The error magnitudes [np.abs(expected - predicted).flatten()]: one
    per record and coordinate. *)
Definition abs_errors (expected predicted : list (list Qc)) : result (list Qc) :=
  errors ← Np2.subtract expected predicted;
  let errors := Np2.abs errors in
  Ok (Np2.flatten errors).

(** The loop [for model in models] of [plot_cdf], [counter] being the
    number of the next model. *)
Fixpoint plot_cdf_models {backend : Keras.Backend}
    (models : list NeuralNetworkModel) (testing_data : Pd.DataFrame Qc)
    (counter : nat) : result (list Plt.call) :=
  match models with
  | [] => Ok []
  | model :: models' =>
      tested ← (test testing_data model).2;
      let predictions := tested.2 in
      errors ← abs_errors (Pd.values Pd.expected_X Pd.expected_Y testing_data)
                          predictions;
      let '(sorted_errors, cdf) := calculate_cdf errors in
      calls ← plot_cdf_models models' testing_data (counter + 1);
      Ok (Plt.plot (Some sorted_errors) cdf ("Model: " +:+ pretty counter) "-"
          :: Plt.grid true :: calls)
  end.

(** The curve of the raw measurements: the errors between the input and
    the expected columns. *)
Definition real_errors (testing_data : Pd.DataFrame Qc) : result (list Qc) :=
  abs_errors (Pd.values Pd.expected_X Pd.expected_Y testing_data)
             (Pd.values Pd.input_X Pd.input_Y testing_data).

Definition plot_cdf {backend : Keras.Backend}
    (models : list NeuralNetworkModel) (testing_data : Pd.DataFrame Qc)
    : result (list Plt.call) :=
  calls ← plot_cdf_models models testing_data 1;
  (* distribution of errors for real dynamic measurements *)
  real_errors ← real_errors testing_data;
  let '(sorted_real_errors, real_cdf) := calculate_cdf real_errors in
  Ok ([Plt.figure 10 6] ++ calls ++
      [Plt.plot (Some sorted_real_errors) real_cdf
                "wszystkie pomiary dynamiczne" "--";
       Plt.xlabel "Błąd";
       Plt.ylabel "Skumulowane prawdopodobieństwo";
       Plt.title "Dystrybuanta blędów pomiarów dynamicznych dla wybranych wariantów sieci";
       Plt.legend; Plt.show]).

(** The labels of the curves drawn, in drawing order. *)
Definition plot_labels (calls : list Plt.call) : list string :=
  omap (λ c, match c with
             | Plt.plot _ _ label _ => Some label
             | _ => None
             end) calls.


(** The two error magnitudes of one raw measurement. *)
Definition raw_errors (r : Pd.row Qc) : list Qc :=
  [Np2.abs1 (Pd.expected_X r - Pd.input_X r);
   Np2.abs1 (Pd.expected_Y r - Pd.input_Y r)].

(** ** Sample data used in the examples *)

Definition qz (n : Z) : Qc := Qc_of_Z n.

Definition num (n : Z) : Pd.cell := Some (qz n).
Definition sample_a : Pd.DataFrame Pd.cell :=
  [Pd.Row (num 1) (num 2) (num 3) (num 4);
   Pd.Row (num 5) (num 6) (num 7) (num 8);
   Pd.Row (num 9) (num 10) (num 11) (num 12)].
Definition sample_b : Pd.DataFrame Pd.cell :=
  [Pd.Row (num 13) (num 14) (num 15) (num 16);
   Pd.Row (num 17) (num 18) (num 19) (num 20)].
Definition sample_m : Pd.DataFrame Pd.cell :=
  [Pd.Row (num 1) (num 2) (num 3) (num 4);
   Pd.Row (num 5) (num 6) (num 7) None].

Definition sample_names (folder : string) : list string :=
  if decide (folder = "./dane/f8/stat") then ["b.csv"; "notes.txt"; "a.csv"]
  else if decide (folder = "./dane/f8/dyn") then ["m.csv"; "m.csv.bak"]
  else [].

Definition sample_table (path : string) : Pd.DataFrame Pd.cell :=
  if decide (path = "./dane/f8/stat/a.csv") then sample_a
  else if decide (path = "./dane/f8/stat/b.csv") then sample_b
  else if decide (path = "./dane/f8/dyn/m.csv") then sample_m
  else [].

(** A disk with two static files of 3 and 2 rows, listed out of order
    next to a non-CSV file, and one dynamic file with a missing value. *)
Definition sample_disk : Os.Disk := {|
  Os.listdir folder :=
    if decide (folder ∈ static_folders_paths ++ dynamic_folders_paths)
    then Ok (sample_names folder) else Raise (FileNotFoundError folder);
  Os.read_csv path :=
    if decide (path ∈ ["./dane/f8/stat/a.csv"; "./dane/f8/stat/b.csv";
                       "./dane/f8/dyn/m.csv"])
    then Ok (sample_table path) else Raise (FileNotFoundError path)
|}.

(** The same files, listed in another order among other entries. *)
Definition sample_disk_shuffled : Os.Disk := {|
  Os.listdir folder :=
    if decide (folder = "./dane/f8/stat")
    then Ok ["old"; "a.csv"; "README"; "b.csv"]
    else Os.listdir sample_disk folder;
  Os.read_csv := Os.read_csv sample_disk
|}.

(** The last folder is missing. *)
Definition sample_disk_missing : Os.Disk := {|
  Os.listdir folder :=
    if decide (folder = "./dane/f10/dyn") then Raise (FileNotFoundError folder)
    else Os.listdir sample_disk folder;
  Os.read_csv := Os.read_csv sample_disk
|}.

(** One static file does not parse. *)
Definition sample_disk_broken : Os.Disk := {|
  Os.listdir := Os.listdir sample_disk;
  Os.read_csv path :=
    if decide (path = "./dane/f8/stat/b.csv") then Raise (ParserError path)
    else Os.read_csv sample_disk path
|}.

(** Four folders without any CSV file, and nothing that can be read. *)
Definition sample_disk_empty : Os.Disk := {|
  Os.listdir folder := Ok ["notes.txt"; "csv"];
  Os.read_csv path := Raise (FileNotFoundError path)
|}.

(** A small backend with exactly computable kernels: [linear] and [relu]
    activations, constant initialisers, and an update that shifts every
    bias by the learning rate. *)
Definition sample_backend : Keras.Backend := {|
  Keras.activations_get name :=
    if decide (name = "linear") then Some (λ x, x)
    else if decide (name = "relu") then Some (λ x, if decide (0 ≤ x) then x else 0)
    else None;
  Keras.initializers_get name :=
    if decide (name = "ones") then Some (λ _ _ _ _, 1)
    else if decide (name = "zeros") then Some (λ _ _ _ _, 0)
    else None;
  Keras.train_epoch opt ls p x y :=
    let rate := match opt with
                | Keras.AdamOptimizer rate => rate
                | Keras.SGDOptimizer rate _ => rate
                end in
    ({| Keras.kernel := Keras.kernel p;
        Keras.bias := λ k j, Keras.bias p k j + rate |},
     Keras.mean_squared_error y (Keras.call_from p 0 ls <$> x));
  Keras.no_sample_error := ValueError "Empty batch_outputs"
|}.

(** A 2-3-2 network with the named optimizer and epoch count. *)
Definition sample_config (optimizer : string) (epochs : nat) : Config := {|
  hidden_layers := [3%nat];
  activation_function := "relu";
  activation_function_out := "linear";
  weight_init_method := "ones";
  num_of_inputs_neurons := 2;
  num_of_outputs_neurons := 2;
  epochs := epochs;
  learning_rate := qz 1 / qz 100;
  optimizer_type := optimizer;
  momentum := qz 9 / qz 10
|}.

(** The same network with the [sgd] optimizer at the given momentum. *)
Definition sample_config_momentum (momentum : Qc) : Config := {|
  hidden_layers := [3%nat];
  activation_function := "relu";
  activation_function_out := "linear";
  weight_init_method := "ones";
  num_of_inputs_neurons := 2;
  num_of_outputs_neurons := 2;
  epochs := 3;
  learning_rate := qz 1 / qz 100;
  optimizer_type := "sgd";
  momentum := momentum
|}.

Definition sample_frame : Pd.DataFrame Qc :=
  [Pd.Row (qz 1) (qz 2) (qz 3) (qz 4); Pd.Row (qz 5) (qz 6) (qz 7) (qz 8)].

(** The object [__init__] builds from [sample_config]. *)
Definition sample_model (optimizer : string) (epochs : nat) : NeuralNetworkModel :=
  match __init__ (backend := sample_backend) (sample_config optimizer epochs) with
  | Ok self => self
  | Raise _ => {| config := sample_config optimizer epochs;
                  model := Keras.Sequential_new |}
  end.

Definition sample_model_momentum (momentum : Qc) : NeuralNetworkModel :=
  match __init__ (backend := sample_backend) (sample_config_momentum momentum) with
  | Ok self => self
  | Raise _ => {| config := sample_config_momentum momentum;
                  model := Keras.Sequential_new |}
  end.

(** The same object after one call of [train]. *)
Definition sample_trained : NeuralNetworkModel :=
  (train (backend := sample_backend) sample_frame sample_frame
         (sample_model "sgd" 3)).1.

(* ================================================================= *)
(** * Properties *)

(** ** Arithmetic of the array operations *)

Section np_facts.
Implicit Types (a : list Qc) (acc x s : Qc).

Lemma sort_perm a : Np.sort a ≡ₚ a.
Proof. apply merge_sort_Permutation. Qed.

Lemma sort_sorted a : Sorted Qcle (Np.sort a).
Proof. apply (Sorted_merge_sort Qcle). Qed.

Lemma sort_length a : length (Np.sort a) = length a.
Proof. by rewrite sort_perm. Qed.


Lemma sum_cons x a : Np.sum (x :: a) = x + Np.sum a.
Proof. reflexivity. Qed.


Lemma sum_nonneg a : Forall (Qcle 0) a → 0 ≤ Np.sum a.
Proof.
  induction 1 as [|x a Hx _ IH]; [done|].
  rewrite sum_cons. by apply Qcplus_nonneg_nonneg.
Qed.

(** Non-negative magnitudes that add up to zero are all zero. *)
Lemma sum_zero_all_zero a :
  Forall (Qcle 0) a → Np.sum a = 0 → Forall (λ x, x = 0) a.
Proof.
  induction 1 as [|x a Hx Ha IH]; [constructor|].
  rewrite sum_cons. intros Hsum.
  destruct (Qcle_lt_or_eq _ _ Hx) as [Hpos| <-].
  - exfalso. apply (Qclt_not_eq 0 (x + Np.sum a)); [|done].
    apply Qcplus_pos_nonneg; [done|by apply sum_nonneg].
  - rewrite Qcplus_0_l in Hsum. constructor; auto.
Qed.

Lemma cumsum_from_length acc a : length (Np.cumsum_from acc a) = length a.
Proof. revert acc. induction a as [|x a IH]; intros acc; simpl; [done|]. by rewrite IH. Qed.






Lemma divide_length a s : length (Np.divide a s) = length a.
Proof. apply length_fmap. Qed.



End np_facts.

(** ** [calculate_cdf] *)

Section calculate_cdf_facts.
Implicit Types (errors : list Qc).


Lemma calculate_cdf_snd errors :
  (calculate_cdf errors).2 =
  Np.divide (Np.cumsum (Np.sort errors)) (Np.sum (Np.sort errors)).
Proof. reflexivity. Qed.

Lemma calculate_cdf_length errors :
  length (calculate_cdf errors).2 = length errors.
Proof.
  rewrite calculate_cdf_snd, divide_length. unfold Np.cumsum.
  by rewrite cumsum_from_length, sort_length.
Qed.




Lemma sum_zeros n : Np.sum (replicate n 0) = 0.
Proof.
  induction n as [|n IH]; simpl; [done|].
  by rewrite sum_cons, IH, Qcplus_0_l.
Qed.



End calculate_cdf_facts.



(** The sample [3, 1]: the first CDF value is the share 1/4 of the
    total, where the rank fraction would be 1/2. *)
Example calculate_cdf_not_rank_based :
  calculate_cdf [qz 3; qz 1] = ([qz 1; qz 3], [Np.Finite (qz 1 / qz 4); Np.Finite 1]).
Proof. compute_done. Qed.









(** ** [load_data] *)

Section load_data_facts.
Implicit Types (names : list string) (df : Pd.DataFrame Pd.cell).

Lemma csv_files_perm names :
  csv_files names ≡ₚ filter (λ file, endswith file ".csv" = true) names.
Proof. apply merge_sort_Permutation. Qed.

(** Only names with the CSV extension are kept, and all of them. *)
Lemma csv_files_elem_of names file :
  file ∈ csv_files names ↔ file ∈ names ∧ endswith file ".csv" = true.
Proof. rewrite csv_files_perm, list_elem_of_filter. tauto. Qed.

(** They are visited in ascending (byte-wise lexicographic) order. *)
Lemma csv_files_sorted names : Sorted String.le (csv_files names).
Proof. apply (Sorted_merge_sort String.le). Qed.

Lemma concat_pair {C} (d1 d2 : Pd.DataFrame C) : Pd.concat [d1; d2] = d1 ++ d2.
Proof. unfold Pd.concat. simpl. by rewrite app_nil_r. Qed.

(** When every file reads, the loop appends the tables in list order. *)
Lemma read_files_ok disk folder files table df :
  (∀ file, file ∈ files →
     Os.read_csv disk (Os.path_join folder file)
     = Ok (table (Os.path_join folder file))) →
  read_files disk folder files df
  = Ok (df ++ Pd.concat ((λ file, table (Os.path_join folder file)) <$> files)).
Proof.
  revert df. induction files as [|file files IH]; intros df Hread; simpl.
  - unfold Pd.concat. simpl. by rewrite app_nil_r.
  - rewrite Hread by left. simpl.
    rewrite IH by (intros; apply Hread; by right).
    rewrite concat_pair. unfold Pd.concat. simpl. by rewrite (assoc_L (++)).
Qed.

Lemma bind_singleton_fmap {A B} (g : A → B) (l : list A) :
  (x ← l; [g x]) = g <$> l.
Proof. induction l as [|x l IH]; [done|]. by rewrite bind_cons, IH. Qed.

Lemma tables_in_order_pair nm table f1 f2 :
  tables_in_order nm table [f1; f2]
  = Pd.concat ((λ file, table (Os.path_join f1 file)) <$> csv_files (nm f1))
    ++ Pd.concat ((λ file, table (Os.path_join f2 file)) <$> csv_files (nm f2)).
Proof.
  unfold tables_in_order, Pd.concat.
  rewrite !bind_cons, !bind_singleton_fmap. simpl.
  by rewrite app_nil_r, join_app.
Qed.

(** [dropna] keeps, in order, exactly the rows without a missing value. *)
Lemma dropna_filter df :
  Pd.cells <$> Pd.dropna df = filter (λ r, Pd.notna r = true) df.
Proof.
  unfold Pd.dropna. induction df as [|r df IH]; [done|].
  rewrite filter_cons.
  destruct r as [[x|] [y|] [ex|] [ey|]]; csimpl; by rewrite IH.
Qed.

Lemma dropna_app df1 df2 : Pd.dropna (df1 ++ df2) = Pd.dropna df1 ++ Pd.dropna df2.
Proof. apply omap_app. Qed.

(** A frame without missing values loses nothing. *)
Lemma dropna_cells (d : Pd.DataFrame Qc) : Pd.dropna (Pd.cells <$> d) = d.
Proof.
  unfold Pd.dropna. induction d as [|[x y ex ey] d IH]; [done|].
  csimpl. by rewrite IH.
Qed.

End load_data_facts.

(** C5.  When the four folders can be listed and every CSV file in them
    parses, [load_data] succeeds and each returned frame is, before the
    null-drop, the concatenation over the folders in turn of the tables
    of their files: only the names ending in [.csv], visited in sorted
    (lexicographic) name order, each table appended whole and in the
    order met.  Static folders feed the training frame, dynamic folders
    the testing frame. *)
Theorem load_data_concatenates (disk : Os.Disk)
    (names : string → list string) (table : string → Pd.DataFrame Pd.cell) :
  (∀ folder, folder ∈ static_folders_paths ++ dynamic_folders_paths →
     Os.listdir disk folder = Ok (names folder)) →
  (∀ folder file, folder ∈ static_folders_paths ++ dynamic_folders_paths →
     file ∈ csv_files (names folder) →
     Os.read_csv disk (Os.path_join folder file)
     = Ok (table (Os.path_join folder file))) →
  (∃ loaded, load_data disk = Ok loaded ∧
     training_data loaded
     = Pd.dropna (tables_in_order names table static_folders_paths) ∧
     testing_data loaded
     = Pd.dropna (tables_in_order names table dynamic_folders_paths)) ∧
  (∀ folder,
     Sorted String.le (csv_files (names folder)) ∧
     ∀ file, file ∈ csv_files (names folder) ↔
             file ∈ names folder ∧ endswith file ".csv" = true).
Proof.
  intros Hlist Hread. split.
  2:{ intros folder. split; [apply csv_files_sorted|apply csv_files_elem_of]. }
  unfold load_data, load_frames, load_folder_pair. simpl.
  unfold static_folders_paths, dynamic_folders_paths in *.
  rewrite !Hlist by set_solver. simpl.
  rewrite !(read_files_ok _ _ _ table) by (intros; apply Hread; [set_solver|done]).
  simpl. rewrite !(read_files_ok _ _ _ table) by (intros; apply Hread; [set_solver|done]).
  simpl. eexists. split; [reflexivity|]. simpl.
  by rewrite !tables_in_order_pair.
Qed.

(** The end-to-end example: static files [a.csv] (3 rows) and [b.csv]
    (2 rows), listed as [b.csv; notes.txt; a.csv], load as 5 training
    rows, those of [a.csv] first. *)
Lemma load_data_concatenates_witness :
  ∃ loaded, load_data sample_disk = Ok loaded ∧
    Pd.cells <$> training_data loaded = sample_a ++ sample_b ∧
    length (training_data loaded) = 5%nat.
Proof.
  destruct (load_data_concatenates sample_disk sample_names sample_table)
    as [(loaded & Hload & Htrain & _) _].
  - intros folder Hf. simpl. by rewrite decide_True.
  - intros folder file Hf Hfile. simpl.
    rewrite decide_True; [done|].
    apply elem_of_app in Hf as [Hf|Hf];
      repeat (apply elem_of_cons in Hf as [->|Hf]); try (by inversion Hf);
      vm_compute in Hfile;
      repeat (apply elem_of_cons in Hfile as [->|Hfile]); try (by inversion Hfile);
      vm_compute; set_solver.
  - exists loaded. split; [done|]. rewrite Htrain. split; reflexivity.
Defined.

(** C6.  Once the loop over the folders has produced the two frames,
    [load_data] returns them with exactly the rows holding a missing
    value removed, and the other rows kept in order. *)
Theorem load_data_drops_missing (disk : Os.Disk)
    (data : Pd.DataFrame Pd.cell * Pd.DataFrame Pd.cell) :
  load_frames disk = Ok data →
  ∃ loaded, load_data disk = Ok loaded ∧
    Pd.cells <$> training_data loaded = filter (λ r, Pd.notna r = true) data.1 ∧
    Pd.cells <$> testing_data loaded = filter (λ r, Pd.notna r = true) data.2.
Proof.
  intros Hdata. unfold load_data. rewrite Hdata. simpl.
  eexists. split; [reflexivity|]. simpl. by rewrite !dropna_filter.
Qed.

(** The example of the specification: rows [1,2,3,4] and [5,6,7,NaN]
    load as the first row alone. *)
Lemma load_data_drops_missing_witness :
  load_frames sample_disk = Ok (sample_a ++ sample_b, sample_m) ∧
  ∃ loaded, load_data sample_disk = Ok loaded ∧
    Pd.cells <$> testing_data loaded
    = [Pd.Row (num 1) (num 2) (num 3) (num 4)].
Proof.
  assert (H : load_frames sample_disk = Ok (sample_a ++ sample_b, sample_m))
    by reflexivity.
  split; [done|].
  destruct (load_data_drops_missing sample_disk _ H) as (loaded & Hl & _ & Ht).
  exists loaded. split; [done|]. rewrite Ht. reflexivity.
Defined.

(** ** The Keras model *)

Section keras_facts.
Context {backend : Keras.Backend}.
Implicit Types (model : Keras.Sequential) (p : Keras.Params)
  (x y : list (list Qc)) (h : Keras.History).









Lemma compile_mse model opt :
  Keras.compile model opt "mean_squared_error" ["mse"]
  = Ok {| Keras.input_shape := Keras.input_shape model;
          Keras.layers := Keras.layers model;
          Keras.params := Keras.params model;
          Keras.compiled := Some {| Keras.optimizer := opt;
                                    Keras.loss := "mean_squared_error";
                                    Keras.metrics := ["mse"] |} |}.
Proof. reflexivity. Qed.









End keras_facts.

(** ** The wrapper *)

Section wrapper_facts.
Context {backend : Keras.Backend}.
Implicit Types (cfg : Config) (self : NeuralNetworkModel)
  (training_data testing_data : Pd.DataFrame Qc).

(** With the default arguments the optimizer is recognised and the
    network is 2-in, 2-out, as the frames are. *)
Lemma defaults_shape (widths : list nat) :
  optimizer_type (defaults widths) = "adam" ∧
  num_of_inputs_neurons (defaults widths) = 2%nat ∧
  num_of_outputs_neurons (defaults widths) = 2%nat ∧
  epochs (defaults widths) = 100%nat.
Proof. done. Qed.

Lemma Dense_inv u a i layer :
  Keras.Dense u a i = Ok layer →
  ∃ d, layer = Keras.DenseOf d ∧ Keras.units d = u ∧ u ≠ 0%nat.
Proof.
  unfold Keras.Dense. intros H.
  destruct (decide (u = 0%nat)); [done|].
  destruct (Keras.activations_get a), (Keras.initializers_get i);
    simplify_eq. eauto.
Qed.

(** The loop over the further hidden layers keeps the input shape and
    the compilation state, and only appends layers. *)
Lemma hidden_loop_inv cfg (ls : list nat) (acc : result Keras.Sequential) m' :
  foldl (λ acc layer,
           m ← acc;
           nhl ← Keras.Dense layer (activation_function cfg)
                             (weight_init_method cfg);
           Keras.add m nhl) acc ls = Ok m' →
  ∃ m, acc = Ok m ∧
    Keras.input_shape m' = Keras.input_shape m ∧
    Keras.compiled m' = Keras.compiled m ∧
    (Keras.layers m ≠ [] → Keras.layers m' ≠ []).
Proof.
  revert acc. induction ls as [|u ls IH]; intros acc; simpl.
  - intros ->. eauto.
  - intros H. apply IH in H as (m1 & Hstep & Hin & Hc & Hl).
    destruct acc as [m|e]; [|done]. simpl in Hstep.
    destruct (Keras.Dense u _ _) as [layer|e] eqn:Hd; [|done].
    apply Dense_inv in Hd as (d & -> & _). simpl in Hstep.
    injection Hstep as <-. simpl in *.
    exists m. split_and!; [done..|].
    intros _. apply Hl. by destruct (Keras.layers m).
Qed.

(** What [create_model] builds: an input of the configured width, at
    least one layer, the last one of the configured output width, and no
    compilation yet. *)
Lemma create_model_inv cfg m :
  create_model cfg = Ok m →
  Keras.input_shape m = Some (num_of_inputs_neurons cfg) ∧
  Keras.output_width m = Some (num_of_outputs_neurons cfg) ∧
  Keras.layers m ≠ [] ∧
  Keras.compiled m = None.
Proof.
  unfold create_model. simpl. intros H.
  destruct (getitem (hidden_layers cfg) 0) as [first|e]; [|done]. simpl in H.
  destruct (Keras.Dense first _ _) as [fhl|e] eqn:Hfhl; [|done].
  apply Dense_inv in Hfhl as (d1 & -> & _). simpl in H.
  destruct (foldl _ _ _) as [m1|e] eqn:Hloop; [|done].
  apply hidden_loop_inv in Hloop as (m0 & [= <-] & Hin & Hc & Hl).
  simpl in *.
  destruct (Keras.Dense (num_of_outputs_neurons cfg) _ _) as [ol|e] eqn:Hol;
    [|done].
  apply Dense_inv in Hol as (d2 & -> & Hu & _). simpl in H.
  injection H as <-. unfold Keras.output_width. simpl.
  rewrite last_snoc, Hu. split_and!; [done|done| |done].
  by destruct (Keras.layers m1).
Qed.

Lemma init_inv cfg self :
  __init__ cfg = Ok self →
  config self = cfg ∧ well_shaped self ∧ Keras.compiled (model self) = None.
Proof.
  unfold __init__. intros H.
  destruct (create_model cfg) as [m|e] eqn:Hm; [|done].
  injection H as <-. apply create_model_inv in Hm as (? & ? & ? & ?).
  by repeat split.
Qed.


(** [train] when no optimizer is constructed: the exception is raised
    and the object is as it was. *)
Lemma train_not_selected training_data testing_data self e :
  selected_optimizer self = Raise e →
  train training_data testing_data self = (self, Raise e).
Proof. unfold train, selected_optimizer. by intros ->. Qed.




Lemma selected_unknown self :
  optimizer_type self ≠ "adam" → optimizer_type self ≠ "sgd" →
  selected_optimizer self = Raise optimizer_error.
Proof. intros H1 H2. unfold selected_optimizer. by rewrite !decide_False. Qed.






Lemma train_unknown_optimizer training_data testing_data self :
  optimizer_type self ≠ "adam" → optimizer_type self ≠ "sgd" →
  train training_data testing_data self = (self, Raise optimizer_error).
Proof. intros H1 H2. by apply train_not_selected, selected_unknown. Qed.


End wrapper_facts.

Section wrapper_claims.
Context {backend : Keras.Backend}.

(** C2, with the error raised by [train].  Construction never looks at
    the optimizer name: the network built is the same whatever the
    name.  A model constructed with a name other than [adam] and [sgd]
    is rejected by [train], with the invalid-configuration error, before
    the model is compiled or any epoch runs: the object is left as it
    was. *)
Theorem unknown_optimizer_rejected_by_train (cfg : Config)
    (self : NeuralNetworkModel) (training_data testing_data : Pd.DataFrame Qc) :
  optimizer_type cfg ≠ "adam" →
  optimizer_type cfg ≠ "sgd" →
  __init__ cfg = Ok self →
  train training_data testing_data self = (self, Raise optimizer_error) ∧
  Keras.compiled (model self) = None ∧
  ∀ name, create_model (with_optimizer name cfg) = create_model cfg.
Proof.
  intros Ha Hs Hinit. apply init_inv in Hinit as (Hcfg & _ & Hc).
  split_and!; [|done|done].
  apply train_unknown_optimizer; by rewrite Hcfg.
Qed.




End wrapper_claims.

(** Construction with an unknown optimizer name succeeds. *)
Lemma rmsprop_model_is_constructed :
  __init__ (backend := sample_backend) (sample_config "rmsprop" 3)
  = Ok (sample_model "rmsprop" 3) ∧
  optimizer_type (sample_model "rmsprop" 3) = "rmsprop" ∧
  ∀ e, __init__ (backend := sample_backend) (sample_config "rmsprop" 3) ≠ Raise e.
Proof. split_and!; [reflexivity|reflexivity|]. intros e. by vm_compute. Qed.

Lemma unknown_optimizer_rejected_by_train_witness :
  train (backend := sample_backend) sample_frame sample_frame
        (sample_model "rmsprop" 3)
  = (sample_model "rmsprop" 3, Raise optimizer_error).
Proof.
  apply (unknown_optimizer_rejected_by_train (backend := sample_backend)
           (sample_config "rmsprop" 3) (sample_model "rmsprop" 3)
           sample_frame sample_frame).
  - simpl. discriminate.
  - simpl. discriminate.
  - reflexivity.
Defined.


(** With the recognised name [sgd] and the momentum [3/2], [train]
    raises all the same: a [ValueError], from the constructor of the
    optimizer, which is not the error of the unknown name. *)
Lemma train_sgd_momentum_rejected :
  optimizer_type (sample_model_momentum (qz 3 / qz 2)) = "sgd" ∧
  train (backend := sample_backend) sample_frame sample_frame
        (sample_model_momentum (qz 3 / qz 2))
  = (sample_model_momentum (qz 3 / qz 2), Raise Keras.momentum_error) ∧
  (∃ msg, Keras.momentum_error = ValueError msg) ∧
  Keras.momentum_error ≠ optimizer_error.
Proof.
  split_and!; [reflexivity|by vm_compute|by eexists|by vm_compute].
Qed.


(** The series can be missing.  With no epoch the history holds
    nothing, and the accessors find no series; with three epochs over a
    training frame without records no training error is logged; with
    three epochs and a testing frame without records no validation
    error is logged. *)
Lemma train_history_missing_series :
  (∃ self' history,
     train (backend := sample_backend) sample_frame sample_frame
           (sample_model "adam" 0) = (self', Ok history) ∧
     Keras.history history = ∅ ∧
     (give_train_mse history self').2 = Raise (KeyError "mse") ∧
     (give_test_mse history self').2 = Raise (KeyError "val_mse")) ∧
  (∃ self' history,
     train (backend := sample_backend) [] sample_frame
           (sample_model "adam" 3) = (self', Ok history) ∧
     (give_train_mse history self').2 = Raise (KeyError "mse")) ∧
  (∃ self' history,
     train (backend := sample_backend) sample_frame []
           (sample_model "adam" 3) = (self', Ok history) ∧
     (give_test_mse history self').2 = Raise (KeyError "val_mse")).
Proof.
  split_and!; eexists _, _; split_and!; by vm_compute.
Qed.

Lemma sample_trained_is_trained : trained (backend := sample_backend) sample_trained.
Proof.
  unfold sample_trained.
  destruct (train (backend := sample_backend) sample_frame sample_frame
                  (sample_model "sgd" 3)) as [self' [history|e]] eqn:Htrain.
  - apply (trained_intro (sample_model "sgd" 3) sample_frame sample_frame
             self' history); [|exact Htrain].
    apply (constructed_init (sample_config "sgd" 3)). reflexivity.
  - exfalso. apply (f_equal snd) in Htrain. vm_compute in Htrain. discriminate.
Defined.


(** On a frame without records [test] raises, trained model or not. *)
Lemma test_empty_frame_raises :
  trained (backend := sample_backend) sample_trained ∧
  ∃ e, test (backend := sample_backend) [] sample_trained
       = (sample_trained, Raise e).
Proof. split; [exact sample_trained_is_trained|]. by eexists. Qed.

(* ================================================================= *)
(** * Further properties of the code *)

(** ** [calculate_cdf]: shape, range, fixed points, change of unit *)

Section calculate_cdf_more.
Implicit Types (a : list Qc) (c x s : Qc).








Lemma sort_sorted_id a : Sorted Qcle a → Np.sort a = a.
Proof.
  intros Ha. apply (Sorted_unique Qcle); [apply sort_sorted|done|apply sort_perm].
Qed.

End calculate_cdf_more.





(** X3.  Whatever the input (empty, all zero, of mixed sign), both
    returned arrays have exactly as many entries as there are errors. *)
Theorem calculate_cdf_lengths (errors : list Qc) :
  length (calculate_cdf errors).1 = length errors ∧
  length (calculate_cdf errors).2 = length errors.
Proof. split; [apply sort_length|apply calculate_cdf_length]. Qed.

(** X4.  Errors that already come in ascending order are returned as
    they are, so [calculate_cdf] applied to its own sorted output gives
    the same pair again. *)
Theorem calculate_cdf_sorted_input (errors : list Qc) :
  (Sorted Qcle errors → (calculate_cdf errors).1 = errors) ∧
  calculate_cdf (calculate_cdf errors).1 = calculate_cdf errors.
Proof.
  split.
  - apply sort_sorted_id.
  - unfold calculate_cdf. simpl. by rewrite (sort_sorted_id (Np.sort errors))
      by apply sort_sorted.
Qed.

Lemma calculate_cdf_sorted_input_witness :
  (calculate_cdf [qz 1; qz 3; qz 4]).1 = [qz 1; qz 3; qz 4].
Proof.
  apply (calculate_cdf_sorted_input [qz 1; qz 3; qz 4]).
  repeat constructor; by vm_compute.
Defined.

(** ** [load_data]: what the result depends on, and what is fatal *)

Section load_data_more.
Implicit Types (disk : Os.Disk) (names files : list string)
  (data : list (Pd.row Pd.cell) * list (Pd.row Pd.cell)).

Lemma csv_files_same names1 names2 :
  filter (λ file, endswith file ".csv" = true) names1
  ≡ₚ filter (λ file, endswith file ".csv" = true) names2 →
  csv_files names1 = csv_files names2.
Proof.
  intros Hp. apply (Sorted_unique String.le); [apply csv_files_sorted..|].
  by rewrite !csv_files_perm.
Qed.

Lemma csv_files_none names :
  Forall (λ file, endswith file ".csv" = false) names → csv_files names = [].
Proof.
  intros Hn. unfold csv_files.
  replace (filter _ names) with (@nil string); [done|].
  symmetry. induction Hn as [|file names Hf _ IH]; [done|].
  rewrite filter_cons_False by congruence. done.
Qed.

Lemma getitem_elem_of {A} (l : list A) i x : getitem l i = Ok x → x ∈ l.
Proof.
  unfold getitem. destruct (l !! i) eqn:Hl; [|done].
  intros [= ->]. by eapply list_elem_of_lookup_2.
Qed.

Lemma read_files_ext disk1 disk2 folder files (df : list (Pd.row Pd.cell)) :
  (∀ file, file ∈ files →
     Os.read_csv disk1 (Os.path_join folder file)
     = Os.read_csv disk2 (Os.path_join folder file)) →
  read_files disk1 folder files df = read_files disk2 folder files df.
Proof.
  revert df. induction files as [|file files IH]; intros df Hread; simpl; [done|].
  rewrite <-Hread by left.
  destruct (Os.read_csv disk1 _) as [t|e]; simpl; [|done].
  apply IH. intros; apply Hread; by right.
Qed.

(** The first file that fails to parse ends the loop with its error. *)
Lemma read_files_raise disk folder files file e :
  file ∈ files →
  Os.read_csv disk (Os.path_join folder file) = Raise e →
  ∃ e', ∀ df, read_files disk folder files df = Raise e'.
Proof.
  intros Hin Hfile. induction files as [|f files IH]; [by inversion Hin|].
  destruct (Os.read_csv disk (Os.path_join folder f)) as [t|e1] eqn:Hf.
  - apply elem_of_cons in Hin as [->|Hin]; [congruence|].
    destruct (IH Hin) as [e' He']. exists e'. intros df. simpl.
    rewrite Hf. simpl. apply He'.
  - exists e1. intros df. simpl. by rewrite Hf.
Qed.

Lemma load_folder_pair_ext disk1 disk2 i data :
  (∀ folder, folder ∈ static_folders_paths ++ dynamic_folders_paths →
     same_csv_names (Os.listdir disk1 folder) (Os.listdir disk2 folder)) →
  (∀ folder names file,
     folder ∈ static_folders_paths ++ dynamic_folders_paths →
     Os.listdir disk1 folder = Ok names →
     file ∈ csv_files names →
     Os.read_csv disk1 (Os.path_join folder file)
     = Os.read_csv disk2 (Os.path_join folder file)) →
  load_folder_pair disk1 i data = load_folder_pair disk2 i data.
Proof.
  intros Hlist Hread. unfold load_folder_pair.
  destruct (getitem static_folders_paths i) as [sf|e] eqn:Hsf; simpl; [|done].
  destruct (getitem dynamic_folders_paths i) as [df|e] eqn:Hdf; simpl; [|done].
  apply getitem_elem_of in Hsf, Hdf.
  assert (sf ∈ static_folders_paths ++ dynamic_folders_paths) as Hs
    by (apply elem_of_app; by left).
  assert (df ∈ static_folders_paths ++ dynamic_folders_paths) as Hd
    by (apply elem_of_app; by right).
  pose proof (Hlist sf Hs) as Hls. pose proof (Hlist df Hd) as Hld.
  unfold same_csv_names in Hls, Hld.
  destruct (Os.listdir disk1 sf) as [n1|e1] eqn:L1,
           (Os.listdir disk2 sf) as [n2|e2] eqn:L2; simpl; try done;
    [|congruence].
  destruct (Os.listdir disk1 df) as [m1|e1] eqn:M1,
           (Os.listdir disk2 df) as [m2|e2] eqn:M2; simpl; try done;
    [|congruence].
  rewrite <-(csv_files_same n1 n2), <-(csv_files_same m1 m2) by done.
  rewrite <-(read_files_ext disk1 disk2 sf) by (intros; by eapply Hread).
  destruct (read_files disk1 sf _ _) as [tr|e]; simpl; [|done].
  by rewrite <-(read_files_ext disk1 disk2 df) by (intros; by eapply Hread).
Qed.

End load_data_more.

(** X5.  The result depends on the disk only through, for each of the
    four folders, the set of its CSV names and the parsed content of
    those files: the order in which the folder is listed and every entry
    without the CSV extension are irrelevant, and no other path is
    read. *)
Theorem load_data_depends_on_csv_only (disk1 disk2 : Os.Disk) :
  (∀ folder, folder ∈ static_folders_paths ++ dynamic_folders_paths →
     same_csv_names (Os.listdir disk1 folder) (Os.listdir disk2 folder)) →
  (∀ folder names file,
     folder ∈ static_folders_paths ++ dynamic_folders_paths →
     Os.listdir disk1 folder = Ok names →
     file ∈ csv_files names →
     Os.read_csv disk1 (Os.path_join folder file)
     = Os.read_csv disk2 (Os.path_join folder file)) →
  load_data disk1 = load_data disk2.
Proof.
  intros Hlist Hread. unfold load_data, load_frames. simpl.
  rewrite (load_folder_pair_ext disk1 disk2 0) by done.
  destruct (load_folder_pair disk2 0 _) as [data|e]; simpl; [|done].
  by rewrite (load_folder_pair_ext disk1 disk2 1) by done.
Qed.

Lemma load_data_depends_on_csv_only_witness :
  load_data sample_disk = load_data sample_disk_shuffled.
Proof.
  apply load_data_depends_on_csv_only.
  - intros folder Hf. apply elem_of_app in Hf as [Hf|Hf];
      repeat (apply elem_of_cons in Hf as [->|Hf]); try (by inversion Hf);
      vm_compute; try reflexivity.
    apply perm_swap.
  - intros folder names file _ _ _. reflexivity.
Defined.

(** X6.  A folder that cannot be listed is fatal: whichever of the four
    it is, [load_data] raises and returns nothing; for the first folder
    listed the exception raised is the one of [os.listdir]. *)
Theorem load_data_missing_folder (disk : Os.Disk) (folder : string) (e : exn) :
  folder ∈ static_folders_paths ++ dynamic_folders_paths →
  Os.listdir disk folder = Raise e →
  (∃ e', load_data disk = Raise e') ∧
  (folder = "./dane/f8/stat" → load_data disk = Raise e).
Proof.
  intros Hf He.
  assert (Hstep : ∀ i data sf df,
    getitem static_folders_paths i = Ok sf →
    getitem dynamic_folders_paths i = Ok df →
    folder = sf ∨ folder = df →
    ∃ e', load_folder_pair disk i data = Raise e').
  { intros i data sf df Hsf Hdf Hor. unfold load_folder_pair.
    rewrite Hsf, Hdf. simpl.
    destruct Hor as [<-|<-].
    - rewrite He. eauto.
    - destruct (Os.listdir disk sf); simpl; [|eauto]. rewrite He. eauto. }
  split.
  - unfold load_data, load_frames. simpl.
    destruct (load_folder_pair disk 0 _) as [data|e0] eqn:H0; simpl; [|eauto].
    destruct (load_folder_pair disk 1 data) as [data1|e1] eqn:H1; simpl; [|eauto].
    exfalso. apply elem_of_app in Hf as [Hf|Hf];
      repeat (apply elem_of_cons in Hf as [Hf|Hf]); try (by inversion Hf).
    + destruct (Hstep 0%nat (Pd.empty, Pd.empty) _ _ eq_refl eq_refl (or_introl Hf)).
      congruence.
    + destruct (Hstep 1%nat data _ _ eq_refl eq_refl (or_introl Hf)). congruence.
    + destruct (Hstep 0%nat (Pd.empty, Pd.empty) _ _ eq_refl eq_refl (or_intror Hf)).
      congruence.
    + destruct (Hstep 1%nat data _ _ eq_refl eq_refl (or_intror Hf)). congruence.
  - intros ->. unfold load_data, load_frames, load_folder_pair. simpl.
    by rewrite He.
Qed.

Lemma load_data_missing_folder_witness :
  ∃ e', load_data sample_disk_missing = Raise e'.
Proof.
  apply (load_data_missing_folder sample_disk_missing "./dane/f10/dyn"
           (FileNotFoundError "./dane/f10/dyn")).
  - repeat constructor.
  - reflexivity.
Defined.

(** X7.  A CSV file that fails to parse is fatal too: if any CSV file
    of any of the four listed folders cannot be read, [load_data]
    raises; no partial frame is returned. *)
Theorem load_data_unreadable_file (disk : Os.Disk) (folder file : string)
    (names : list string) (e : exn) :
  folder ∈ static_folders_paths ++ dynamic_folders_paths →
  Os.listdir disk folder = Ok names →
  file ∈ csv_files names →
  Os.read_csv disk (Os.path_join folder file) = Raise e →
  ∃ e', load_data disk = Raise e'.
Proof.
  intros Hf Hl Hfile He.
  destruct (read_files_raise disk folder _ file e Hfile He) as [e' Hraise].
  assert (Hstep : ∀ i data sf df,
    getitem static_folders_paths i = Ok sf →
    getitem dynamic_folders_paths i = Ok df →
    folder = sf ∨ folder = df →
    ∃ e', load_folder_pair disk i data = Raise e').
  { intros i data sf df Hsf Hdf Hor. unfold load_folder_pair.
    rewrite Hsf, Hdf. simpl.
    destruct Hor as [<-|<-].
    - rewrite Hl. simpl.
      destruct (Os.listdir disk df); simpl; [|eauto].
      rewrite Hraise. eauto.
    - destruct (Os.listdir disk sf); simpl; [|eauto]. rewrite Hl. simpl.
      destruct (read_files disk sf _ _); simpl; [|eauto].
      rewrite Hraise. eauto. }
  unfold load_data, load_frames. simpl.
  destruct (load_folder_pair disk 0 _) as [data|e0] eqn:H0; simpl; [|eauto].
  destruct (load_folder_pair disk 1 data) as [data1|e1] eqn:H1; simpl; [|eauto].
  exfalso. apply elem_of_app in Hf as [Hf|Hf];
    repeat (apply elem_of_cons in Hf as [Hf|Hf]); try (by inversion Hf).
  - destruct (Hstep 0%nat (Pd.empty, Pd.empty) _ _ eq_refl eq_refl (or_introl Hf)).
    congruence.
  - destruct (Hstep 1%nat data _ _ eq_refl eq_refl (or_introl Hf)). congruence.
  - destruct (Hstep 0%nat (Pd.empty, Pd.empty) _ _ eq_refl eq_refl (or_intror Hf)).
    congruence.
  - destruct (Hstep 1%nat data _ _ eq_refl eq_refl (or_intror Hf)). congruence.
Qed.

Lemma load_data_unreadable_file_witness :
  ∃ e', load_data sample_disk_broken = Raise e'.
Proof.
  apply (load_data_unreadable_file sample_disk_broken "./dane/f8/stat" "b.csv"
           ["b.csv"; "notes.txt"; "a.csv"] (ParserError "./dane/f8/stat/b.csv")).
  - repeat constructor.
  - reflexivity.
  - vm_compute. repeat constructor.
  - reflexivity.
Defined.

(** X8.  When the four folders can be listed and hold no name with the
    CSV extension, nothing is read and [load_data] succeeds with two
    empty frames, which it still writes to its two debug files. *)
Theorem load_data_no_csv (disk : Os.Disk) :
  (∀ folder, folder ∈ static_folders_paths ++ dynamic_folders_paths →
     ∃ names, Os.listdir disk folder = Ok names ∧
              Forall (λ file, endswith file ".csv" = false) names) →
  load_data disk
  = Ok {| training_data := []; testing_data := [];
          written := [("training_data.csv", []); ("testing_data.csv", [])] |}.
Proof.
  intros Hl. unfold load_data, load_frames, load_folder_pair. simpl.
  destruct (Hl "./dane/f8/stat") as (n1 & -> & H1); [set_solver|].
  destruct (Hl "./dane/f8/dyn") as (n2 & -> & H2); [set_solver|].
  destruct (Hl "./dane/f10/stat") as (n3 & -> & H3); [set_solver|].
  destruct (Hl "./dane/f10/dyn") as (n4 & -> & H4); [set_solver|].
  simpl. by rewrite !csv_files_none by done.
Qed.

Lemma load_data_no_csv_witness :
  ∃ loaded, load_data sample_disk_empty = Ok loaded ∧
    training_data loaded = [] ∧ testing_data loaded = [].
Proof.
  eexists. split.
  - apply (load_data_no_csv sample_disk_empty).
    intros folder _. exists ["notes.txt"; "csv"]. split; [reflexivity|].
    repeat constructor.
  - split; reflexivity.
Defined.

(** ** The CSV extension *)

Section strings_more.
Implicit Types (s p q : string) (c : Ascii.ascii).

Lemma append_cons c s q : String c s +:+ q = String c (s +:+ q).
Proof. reflexivity. Qed.

Lemma length_append p q :
  String.length (p +:+ q) = (String.length p + String.length q)%nat.
Proof.
  induction p as [|c p IH]; [done|]. rewrite append_cons. simpl. by rewrite IH.
Qed.

Lemma substring_all s : String.substring 0 (String.length s) s = s.
Proof. induction s as [|c s IH]; [done|]. simpl. by rewrite IH. Qed.

Lemma substring_append p q m :
  String.substring (String.length p) m (p +:+ q) = String.substring 0 m q.
Proof. induction p as [|c p IH]; [done|]. by rewrite append_cons. Qed.

Lemma substring_split s k :
  (k ≤ String.length s)%nat →
  String.substring 0 k s +:+ String.substring k (String.length s - k) s = s.
Proof.
  revert k. induction s as [|c s IH]; intros k Hk.
  - simpl in Hk. by replace k with 0%nat by lia.
  - destruct k as [|k].
    + simpl String.substring at 1. rewrite Nat.sub_0_r. apply substring_all.
    + simpl in *. rewrite append_cons, IH by lia. done.
Qed.

(** [s.endswith(suffix)] holds exactly for the strings [stem + suffix]. *)
Lemma endswith_spec s suffix :
  endswith s suffix = true ↔ ∃ stem, s = stem +:+ suffix.
Proof.
  unfold endswith. rewrite andb_true_iff, Nat.leb_le, String.eqb_eq. split.
  - intros [Hle Hsub]. exists (String.substring 0 (String.length s - String.length suffix) s).
    rewrite <-Hsub at 2.
    rewrite <-(substring_split s (String.length s - String.length suffix)) at 1 by lia.
    do 3 f_equal. lia.
  - intros [stem ->]. rewrite length_append. split; [lia|].
    replace (String.length stem + String.length suffix - String.length suffix)%nat
      with (String.length stem) by lia.
    by rewrite substring_append, substring_all.
Qed.

End strings_more.

(** X9.  A directory entry is loaded exactly when its name is some stem
    followed by [.csv], in this letter case: [a.csv] and [.csv] are,
    [a.CSV], [a.csv.bak] and [csv] are not. *)
Theorem csv_files_extension (names : list string) (file : string) :
  (file ∈ csv_files names ↔ file ∈ names ∧ ∃ stem, file = stem +:+ ".csv") ∧
  csv_files ["a.csv"; ".csv"; "a.CSV"; "a.csv.bak"; "csv"] = [".csv"; "a.csv"].
Proof.
  split; [|reflexivity].
  by rewrite csv_files_elem_of, endswith_spec.
Qed.

(** ** The wrapper: construction *)

Section construction_more.
Context {backend : Keras.Backend}.





End construction_more.

Section construction_claims.
Context {backend : Keras.Backend}.

(** X10.  An empty list of hidden-layer widths makes construction fail
    with [IndexError] (from [hidden_layers[0]]), whatever the other
    arguments are, known to the library or not. *)
Theorem init_without_hidden_layers (cfg : Config) :
  hidden_layers cfg = [] →
  __init__ cfg = Raise IndexError ∧ create_model cfg = Raise IndexError.
Proof. intros H. unfold __init__, create_model. rewrite H. by split. Qed.


End construction_claims.

Lemma init_without_hidden_layers_witness :
  __init__ (backend := sample_backend) (defaults []) = Raise IndexError.
Proof.
  apply (init_without_hidden_layers (backend := sample_backend) (defaults [])).
  reflexivity.
Defined.


(** ** The wrapper: [plot] and the accessors *)

(** X12.  [plot] and the two accessors read the same two series and
    fail alike: without an [mse] series [plot] and [give_train_mse]
    raise [KeyError] for [mse]; with it but without [val_mse], [plot] and
    [give_test_mse] raise [KeyError] for [val_mse]; with both, [plot]
    draws what the accessors return, the training errors first.  None
    of the three changes the object. *)
Theorem plot_and_accessors (history : Keras.History) (self : NeuralNetworkModel) :
  (plot history self).1 = self ∧
  (give_train_mse history self).1 = self ∧
  (give_test_mse history self).1 = self ∧
  match (give_train_mse history self).2, (give_test_mse history self).2 with
  | Raise e, _ => e = KeyError "mse" ∧ (plot history self).2 = Raise e
  | Ok _, Raise e => e = KeyError "val_mse" ∧ (plot history self).2 = Raise e
  | Ok mse, Ok val_mse =>
      (plot history self).2
      = Ok [Plt.plot None (Np.Finite <$> mse) "MSE na zbiorze uczącym" "-";
            Plt.plot None (Np.Finite <$> val_mse) "MSE na zbiorze walidacyjnym" "-";
            Plt.xlabel "Epoki"; Plt.ylabel "MSE"; Plt.legend; Plt.show]
  end.
Proof.
  unfold plot, give_train_mse, give_test_mse. simpl.
  split_and!; [done..|].
  destruct (Keras.history history !! "mse"); [|done].
  by destruct (Keras.history history !! "val_mse").
Qed.

(** ** [plot_cdf] *)

Section arrays_more.
Implicit Types (a b : list (list Qc)) (x y : Qc).

Lemma abs1_nonneg x : 0 ≤ Np2.abs1 x.
Proof.
  unfold Np2.abs1. destruct (decide (0 ≤ x)) as [|Hneg]; [done|].
  apply Qcnot_le_lt, Qclt_le_weak, Qcopp_le_compat in Hneg.
  by replace (- 0) with 0 in Hneg by ring.
Qed.

Lemma abs1_zero x : Np2.abs1 x = 0 ↔ x = 0.
Proof.
  unfold Np2.abs1. destruct (decide (0 ≤ x)); [done|]. split.
  - intros H. rewrite <-(Qcopp_involutive x), H. ring.
  - intros ->. ring.
Qed.

Lemma minus_zero x y : x - y = 0 ↔ x = y.
Proof.
  split; [|intros ->; ring].
  intros H. rewrite <-(Qcplus_0_l y), <-H. ring.
Qed.


Lemma subtract_rows_same (r1 r2 : list Qc) :
  length r1 = length r2 →
  Np2.subtract_rows r1 r2 = Ok (zip_with Qcminus r1 r2).
Proof. intros H. unfold Np2.subtract_rows. by rewrite decide_True. Qed.

(** Arrays of one shape subtract entry by entry. *)
Lemma subtract_same_shape a b :
  Forall2 (λ r1 r2, length r1 = length r2) a b →
  Np2.subtract a b = Ok (zip_with (zip_with Qcminus) a b).
Proof.
  intros Hab. unfold Np2.subtract.
  rewrite decide_True by (by eapply Forall2_length).
  induction Hab as [|r1 r2 a b Hr _ IH]; [done|].
  change (zip (r1 :: a) (r2 :: b)) with ((r1, r2) :: zip a b).
  change (mapM ?f (?x :: ?l)) with (y ← f x; k ← mapM f l; mret (y :: k)).
  cbn beta. cbn [fst snd]. rewrite subtract_rows_same by done.
  change (Ok ?v ≫= ?f) with (f v). cbn beta. by rewrite IH.
Qed.

Lemma abs_errors_same_shape a b :
  Forall2 (λ r1 r2, length r1 = length r2) a b →
  abs_errors a b
  = Ok (Np2.flatten (Np2.abs (zip_with (zip_with Qcminus) a b))).
Proof. intros Hab. unfold abs_errors. by rewrite subtract_same_shape. Qed.


Lemma real_errors_eq (df : list (Pd.row Qc)) :
  real_errors df = Ok (r ← df; raw_errors r).
Proof.
  unfold real_errors. rewrite abs_errors_same_shape.
  - f_equal. unfold Np2.flatten, Np2.abs, Pd.values.
    induction df as [|r df IH]; [done|]. csimpl. by rewrite IH.
  - unfold Pd.values. induction df; csimpl; by constructor.
Qed.

Lemma raw_errors_length (df : list (Pd.row Qc)) :
  length (r ← df; raw_errors r) = (2 * length df)%nat.
Proof.
  induction df as [|r df IH]; [done|].
  rewrite bind_cons, length_app, IH. simpl. lia.
Qed.

Lemma raw_errors_nonneg (df : list (Pd.row Qc)) :
  Forall (Qcle 0) (r ← df; raw_errors r).
Proof.
  apply Forall_forall. intros x Hx.
  apply list_elem_of_bind in Hx as (r & Hx & _). unfold raw_errors in Hx.
  repeat (apply elem_of_cons in Hx as [->|Hx]); [apply abs1_nonneg..|].
  by inversion Hx.
Qed.

Lemma raw_errors_exact (df : list (Pd.row Qc)) :
  (∀ r, r ∈ df →
        Pd.input_X r = Pd.expected_X r ∧ Pd.input_Y r = Pd.expected_Y r) →
  (r ← df; raw_errors r) = replicate (2 * length df) 0.
Proof.
  induction df as [|r df IH]; intros Hall; [done|].
  rewrite bind_cons, IH by (intros; apply Hall; by right).
  destruct (Hall r) as [Hx Hy]; [by left|].
  unfold raw_errors. rewrite Hx, Hy.
  replace (Pd.expected_X r - Pd.expected_X r) with 0 by ring.
  replace (Pd.expected_Y r - Pd.expected_Y r) with 0 by ring.
  replace (Np2.abs1 0) with 0 by done.
  simpl. by rewrite Nat.add_0_r, Nat.add_succ_r.
Qed.

Lemma raw_errors_total_zero (df : list (Pd.row Qc)) :
  Np.sum (r ← df; raw_errors r) = 0 ↔
  ∀ r, r ∈ df →
       Pd.input_X r = Pd.expected_X r ∧ Pd.input_Y r = Pd.expected_Y r.
Proof.
  split.
  - intros Hs r Hr.
    apply (sum_zero_all_zero _ (raw_errors_nonneg df)) in Hs.
    rewrite Forall_forall in Hs.
    assert (∀ x, x ∈ raw_errors r → x = 0) as Hr0.
    { intros x Hx. apply Hs, list_elem_of_bind. eauto. }
    unfold raw_errors in Hr0. split; symmetry.
    + apply minus_zero, abs1_zero, Hr0. by left.
    + apply minus_zero, abs1_zero, Hr0. right. by left.
  - intros Hall. rewrite raw_errors_exact by done. apply sum_zeros.
Qed.



End arrays_more.

(** X13.  The raw-measurement errors are always defined: two magnitudes
    per record, none negative, each the distance between an input and
    the expected coordinate; their total is zero exactly when every
    input equals its expected value. *)
Theorem real_errors_spec (testing_data : Pd.DataFrame Qc) :
  ∃ errors,
    real_errors testing_data = Ok errors ∧
    errors = (r ← testing_data; raw_errors r) ∧
    length errors = (2 * length testing_data)%nat ∧
    Forall (Qcle 0) errors ∧
    (Np.sum errors = 0 ↔
     ∀ r, r ∈ testing_data →
          Pd.input_X r = Pd.expected_X r ∧ Pd.input_Y r = Pd.expected_Y r).
Proof.
  eexists. split; [apply real_errors_eq|]. split; [done|].
  split_and!; [apply raw_errors_length|apply raw_errors_nonneg|].
  apply raw_errors_total_zero.
Qed.



Section plot_cdf_more.
Context {backend : Keras.Backend}.
Implicit Types (models : list NeuralNetworkModel) (df : list (Pd.row Qc)).

Lemma plot_cdf_models_cons m models df counter :
  plot_cdf_models (m :: models) df counter
  = (tested ← (test df m).2;
     errors ← abs_errors (Pd.values Pd.expected_X Pd.expected_Y df) tested.2;
     calls ← plot_cdf_models models df (counter + 1);
     Ok (Plt.plot (Some (calculate_cdf errors).1) (calculate_cdf errors).2
                  ("Model: " +:+ pretty counter) "-"
         :: Plt.grid true :: calls)).
Proof. reflexivity. Qed.

Lemma plot_cdf_models_labels models df counter calls :
  plot_cdf_models models df counter = Ok calls →
  plot_labels calls
  = (λ k, "Model: " +:+ pretty k) <$> seq counter (length models).
Proof.
  revert counter calls.
  induction models as [|m models IH]; intros counter calls.
  - by intros [= <-].
  - rewrite plot_cdf_models_cons.
    destruct (test df m).2 as [[mse predictions]|e]; simpl; [|done].
    destruct (abs_errors _ predictions) as [errors|e]; simpl; [|done].
    destruct (plot_cdf_models models df (counter + 1)) as [rest|e] eqn:Hrest;
      simpl; [|done].
    intros [= <-]. apply IH in Hrest. simpl.
    by rewrite Hrest, Nat.add_1_r.
Qed.

Lemma plot_cdf_models_raise models df counter m e :
  m ∈ models →
  (test df m).2 = Raise e →
  ∃ e', plot_cdf_models models df counter = Raise e'.
Proof.
  intros Hin Hm. revert counter.
  induction models as [|m0 models IH]; intros counter; [by inversion Hin|].
  rewrite plot_cdf_models_cons.
  destruct (test df m0).2 as [[mse predictions]|e0] eqn:H0; simpl; [|eauto].
  destruct (abs_errors _ predictions) as [errors|e1]; simpl; [|eauto].
  apply elem_of_cons in Hin as [->|Hin]; [congruence|].
  destruct (IH Hin (counter + 1)%nat) as [e' ->]. simpl. eauto.
Qed.



End plot_cdf_more.

Section plot_cdf_claims.
Context {backend : Keras.Backend}.

(** X15.  When [plot_cdf] succeeds it has drawn one curve per model and
    then the curve of the raw measurements: the labels are [Model: 1] to
    [Model: n] in the order of the list, followed by the label of the
    raw measurements; the figure is opened first and shown last. *)
Theorem plot_cdf_labels (models : list NeuralNetworkModel)
    (testing_data : Pd.DataFrame Qc) (calls : list Plt.call) :
  plot_cdf models testing_data = Ok calls →
  plot_labels calls
  = ((λ k, "Model: " +:+ pretty k) <$> seq 1 (length models))
    ++ ["wszystkie pomiary dynamiczne"] ∧
  head calls = Some (Plt.figure 10 6) ∧
  last calls = Some Plt.show.
Proof.
  unfold plot_cdf.
  destruct (plot_cdf_models models testing_data 1) as [drawn|e] eqn:Hdrawn;
    simpl; [|done].
  rewrite real_errors_eq. simpl. intros [= <-].
  apply plot_cdf_models_labels in Hdrawn.
  split_and!; [|done|].
  - unfold plot_labels in *. simpl. by rewrite omap_app, Hdrawn.
  - by rewrite app_comm_cons, last_app.
Qed.

(** X16.  One model that cannot be tested aborts the whole plot,
    wherever it stands in the list; when it is the first of the list the
    exception of its [test] is the one raised. *)
Theorem plot_cdf_failing_model (models : list NeuralNetworkModel)
    (testing_data : Pd.DataFrame Qc) (m : NeuralNetworkModel) (e : exn) :
  m ∈ models →
  (test testing_data m).2 = Raise e →
  (∃ e', plot_cdf models testing_data = Raise e') ∧
  ∀ others, plot_cdf (m :: others) testing_data = Raise e.
Proof.
  intros Hin Hm. split.
  - unfold plot_cdf.
    destruct (plot_cdf_models_raise models testing_data 1 m e Hin Hm) as [e' ->].
    eauto.
  - intros others. unfold plot_cdf. by rewrite plot_cdf_models_cons, Hm.
Qed.

(** X18.  A model that has only been constructed cannot be tested:
    [test] raises, without changing the object, until [train] has
    compiled the network. *)
Theorem test_before_train (cfg : Config) (self : NeuralNetworkModel)
    (testing_data : Pd.DataFrame Qc) :
  __init__ cfg = Ok self →
  ∃ e, test testing_data self = (self, Raise e).
Proof.
  intros Hinit. apply init_inv in Hinit as (_ & _ & Hc).
  unfold test, Keras.evaluate. rewrite Hc. simpl. eauto.
Qed.


End plot_cdf_claims.

Lemma plot_cdf_labels_witness :
  ∃ calls,
    plot_cdf (backend := sample_backend) [sample_trained; sample_trained]
             sample_frame = Ok calls ∧
    plot_labels calls = ["Model: 1"; "Model: 2"; "wszystkie pomiary dynamiczne"].
Proof.
  destruct (plot_cdf (backend := sample_backend)
              [sample_trained; sample_trained] sample_frame)
    as [calls|e] eqn:Hplot; [|by vm_compute in Hplot].
  exists calls. split; [done|].
  by destruct (plot_cdf_labels _ _ _ Hplot) as (-> & _).
Defined.

Lemma test_before_train_witness :
  ∃ e, test (backend := sample_backend) sample_frame (sample_model "adam" 3)
       = (sample_model "adam" 3, Raise e).
Proof.
  apply (test_before_train (backend := sample_backend) (sample_config "adam" 3)).
  reflexivity.
Defined.

Lemma plot_cdf_failing_model_witness :
  ∃ e', plot_cdf (backend := sample_backend)
                 [sample_trained; sample_model "adam" 3] sample_frame = Raise e'.
Proof.
  apply (plot_cdf_failing_model (backend := sample_backend)
           [sample_trained; sample_model "adam" 3]
           sample_frame (sample_model "adam" 3)
           (ValueError "You must call compile() before using the model")).
  - repeat constructor.
  - reflexivity.
Defined.

